(** * albert-btctl: the Bluetooth plugin of [src/__init__.py]

    A shallow embedding of the plugin's three classes ([BluetoothDevice],
    [BluetoothControl], [Plugin]) together with the Python string builtins
    they call, followed by the properties of the specification.

    Modelling conventions.
    - A Python [str] is a [string] whose characters are the code points
      U+0000..U+00FF; [str.lower], [str.strip] and [str.splitlines] are
      written out for that range.
    - [subprocess.run([...], stdout=PIPE).stdout.decode()] is a function
      [tool] from the argument vector to the decoded standard output.
    - [runDetachedProcess] appends the launched command to a log.
    - An exception is a value of [exn]; fallible code returns [Result].
    - A device object is its record of fields; a method that assigns to
      [self] returns the record after the call. *)

From Stdlib Require Import Strings.String Strings.Ascii Lists.List Bool.Bool.
From Stdlib Require Import Arith.PeanoNat ZArith.ZArith Lia.
From Stdlib Require Import Floats.PrimFloat.
Import ListNotations.
Local Open Scope list_scope.
Local Open Scope string_scope.
Local Open Scope nat_scope.

(** ** Python string builtins *)

Module Py.

Definition code (c : ascii) : nat := nat_of_ascii c.

Definition in_range (lo hi n : nat) : bool := (lo <=? n) && (n <=? hi).

(** [str.isspace] on one character of the range: TAB, LF, VT, FF, CR,
    FS, GS, RS, US, SPACE, NEL and NBSP. *)
Definition isspace (c : ascii) : bool :=
  let n := code c in
  in_range 9 13 n || in_range 28 32 n || (n =? 133) || (n =? 160).

(** The line boundaries of [str.splitlines]: LF, VT, FF, CR, FS, GS, RS
    and NEL (US is white space but no boundary). *)
Definition islinebreak (c : ascii) : bool :=
  let n := code c in
  in_range 10 13 n || in_range 28 30 n || (n =? 133).

Definition CR : ascii := ascii_of_nat 13.
Definition LF : ascii := ascii_of_nat 10.

(** [str.lower] on one character: A-Z, and the capital letters of
    U+00C0..U+00DE without the multiplication sign U+00D7. *)
Definition lower_char (c : ascii) : ascii :=
  let n := code c in
  if in_range 65 90 n || (in_range 192 222 n && negb (n =? 215))
  then ascii_of_nat (n + 32) else c.

Fixpoint lower (s : string) : string :=
  match s with
  | EmptyString => EmptyString
  | String c s' => String (lower_char c) (lower s')
  end.

Fixpoint rev (s : string) : string :=
  match s with
  | EmptyString => EmptyString
  | String c s' => rev s' ++ String c EmptyString
  end.

Fixpoint lstrip (s : string) : string :=
  match s with
  | EmptyString => EmptyString
  | String c s' => if isspace c then lstrip s' else s
  end.

Definition rstrip (s : string) : string := rev (lstrip (rev s)).

(** [s.strip()] *)
Definition strip (s : string) : string := rstrip (lstrip s).

(** [s.splitlines()]: a boundary closes the current line, CR LF counts
    as one boundary, and no empty line follows a final boundary. *)
Fixpoint splitlines (s : string) : list string :=
  match s with
  | EmptyString => []
  | String c s' =>
      if islinebreak c then
        if Ascii.eqb c CR then
          match s' with
          | String c' s'' =>
              if Ascii.eqb c' LF then EmptyString :: splitlines s''
              else EmptyString :: splitlines s'
          | EmptyString => [EmptyString]
          end
        else EmptyString :: splitlines s'
      else
        match splitlines s' with
        | [] => [String c EmptyString]
        | l :: ls => String c l :: ls
        end
  end.

(** The text before and after the first [sep], when there is one. *)
Fixpoint partition (sep : ascii) (s : string) : option (string * string) :=
  match s with
  | EmptyString => None
  | String c s' =>
      if Ascii.eqb c sep then Some (EmptyString, s')
      else match partition sep s' with
           | Some (a, b) => Some (String c a, b)
           | None => None
           end
  end.

(** [s.split(sep, 1)] for a one-character separator. *)
Definition split1 (sep : ascii) (s : string) : list string :=
  match partition sep s with
  | Some (a, b) => [a; b]
  | None => [s]
  end.

(** [s.startswith(p)] *)
Fixpoint startswith (p s : string) : bool :=
  match p, s with
  | EmptyString, _ => true
  | String a p', String b s' => Ascii.eqb a b && startswith p' s'
  | String _ _, EmptyString => false
  end.

Fixpoint drop (n : nat) (s : string) : string :=
  match n, s with
  | S n', String _ s' => drop n' s'
  | _, _ => s
  end.

(** [s.removeprefix(p)] *)
Definition removeprefix (p s : string) : string :=
  if startswith p s then drop (String.length p) s else s.

(** [needle in hay] *)
Fixpoint contains (needle hay : string) : bool :=
  startswith needle hay ||
  match hay with
  | EmptyString => false
  | String _ hay' => contains needle hay'
  end.

(** [not s] for a string: true on the empty string only. *)
Definition is_empty (s : string) : bool :=
  match s with EmptyString => true | String _ _ => false end.

End Py.

(** ** Exceptions and results *)

Inductive exn : Type :=
| ValueError   (* unpacking a sequence of the wrong length *)
| TypeError.   (* raised by [connectDevice] and [disconnectDevice] *)

Inductive Result (A : Type) : Type :=
| Ok (a : A)
| Raise (e : exn).

Arguments Ok {A} a.
Arguments Raise {A} e.

Definition bind {A B : Type} (r : Result A) (k : A -> Result B) : Result B :=
  match r with
  | Ok a => k a
  | Raise e => Raise e
  end.

Notation "'let*' x ':=' r 'in' k" := (bind r (fun x => k))
  (at level 10, x pattern, r at level 100, k at level 200).

(** [a, b = l]: two targets need a sequence of exactly two items. *)
Definition unpack2 (l : list string) : Result (string * string) :=
  match l with
  | [a; b] => Ok (a, b)
  | _ => Raise ValueError
  end.

(** ** The launcher framework ([from albert import *]) *)

(** A command handed to [runDetachedProcess]. *)
Record Process : Type := { cmdln : list string; workdir : string }.

(** [runDetachedProcess(cmdln=..., workdir=...)]: fire and forget; the only
    observable effect is that the command was launched. *)
Definition runDetachedProcess (cmd : list string) (dir : string)
    (launched : list Process) : list Process :=
  (launched ++ [{| cmdln := cmd; workdir := dir |}])%list.

(** The closure of an [Action]: which method of the item's device it calls,
    and with which working directory. *)
Inductive Callable : Type :=
| CallConnect (workingDir : string)
| CallDisconnect (workingDir : string).

Record Action : Type :=
  { action_id : string; action_text : string; action_callable : Callable }.

Record StandardItem : Type :=
  { item_id : string;
    item_text : string;
    item_subtext : string;
    item_iconUrls : list string;
    item_actions : list Action }.

Record RankItem : Type := { rank_item : StandardItem; rank_score : float }.

Record Query : Type := { trigger : string; query_string : string }.

(** ** class BluetoothDevice *)

Record BluetoothDevice : Type :=
  { id : string;
    name : string;
    icon : option string;
    connected : bool }.

Definition set_connected (self : BluetoothDevice) (b : bool) : BluetoothDevice :=
  {| id := id self; name := name self; icon := icon self; connected := b |}.

Section Device.

(** [os.path.dirname(__file__)] *)
Variable pluginDir : string.

Definition disconnect (self : BluetoothDevice) (workingDir : string)
    (launched : list Process) : BluetoothDevice * list Process :=
  if negb (connected self) then (self, launched)
  else
    let launched :=
      runDetachedProcess ["bluetoothctl"; "disconnect"; id self] workingDir launched in
    (set_connected self false, launched).

Definition connect (self : BluetoothDevice) (workingDir : string)
    (launched : list Process) : BluetoothDevice * list Process :=
  if connected self then (self, launched)
  else
    let launched :=
      runDetachedProcess ["bluetoothctl"; "connect"; id self] workingDir launched in
    (set_connected self true, launched).

Definition getIcon (self : BluetoothDevice) : string :=
  match icon self, connected self with
  | Some category, true => "xdg:" ++ category
  | _, _ =>
      if connected self then "xdg:bluetooth-active" else "xdg:bluetooth-disabled"
  end.

Definition item (self : BluetoothDevice) : StandardItem :=
  {| item_id := id self;
     item_text :=
       (if negb (connected self) then "Connect" else "Disconnect") ++ " " ++ name self;
     item_subtext := id self;
     item_iconUrls :=
       [ getIcon self;
         pluginDir ++ (if connected self then "/bluetooth-active.svg"
                       else "/bluetooth-disabled.svg") ];
     item_actions :=
       [ if negb (connected self) then
           {| action_id := "connect"; action_text := "Connect";
              action_callable := CallConnect pluginDir |}
         else
           {| action_id := "disconnect"; action_text := "Disconnect";
              action_callable := CallDisconnect pluginDir |} ] |}.

Definition rankItem (self : BluetoothDevice) : RankItem :=
  {| rank_item := item self;
     rank_score := if connected self then 0%float else 1%float |}.

End Device.

(** ** class BluetoothControl *)

(** The local variables of the loop of [deviceInfo]. *)
Record InfoVars : Type :=
  { v_name : string; v_connected : bool; v_icon : option string }.

(** What a Python value handed to [connectDevice] can be. *)
Inductive pyobj : Type :=
| PyStr (s : string)
| PyDevice (d : BluetoothDevice)
| PyNone
| PyBool (b : bool)
| PyInt (z : Z)
| PyBytes (b : list ascii).

Section Control.

(** Decoded standard output of [subprocess.run] for an argument vector. *)
Variable tool : list string -> string.

(** [self.currentWorkingDir] *)
Variable currentWorkingDir : string.

(** One iteration of the [for x in ...splitlines()] loop of [deviceInfo]. *)
Definition deviceInfo_line (x : string) (v : InfoVars) : Result InfoVars :=
  let currentLine := Py.strip x in
  let* (key, rawValue) := unpack2 (Py.split1 ":" currentLine) in
  let key := Py.lower (Py.strip key) in
  let value := Py.lower (Py.strip rawValue) in
  if String.eqb key "name" then
    Ok {| v_name := Py.strip rawValue; v_connected := v_connected v; v_icon := v_icon v |}
  else if String.eqb key "connected" then
    Ok {| v_name := v_name v; v_connected := String.eqb value "yes"; v_icon := v_icon v |}
  else if String.eqb key "icon" then
    Ok {| v_name := v_name v; v_connected := v_connected v; v_icon := Some value |}
  else Ok v.

Fixpoint deviceInfo_loop (lines : list string) (v : InfoVars) : Result InfoVars :=
  match lines with
  | [] => Ok v
  | x :: lines' =>
      let* v' := deviceInfo_line x v in
      deviceInfo_loop lines' v'
  end.

Definition deviceInfo (id : string) : Result BluetoothDevice :=
  let stdout := tool ["bluetoothctl"; "info"; id] in
  let v0 := {| v_name := "Bluetooth Device " ++ id;
               v_connected := false;
               v_icon := None |} in
  let* v := deviceInfo_loop (Py.splitlines stdout) v0 in
  Ok {| id := id; name := v_name v; icon := v_icon v; connected := v_connected v |}.

(** The loop shared by [listDevices] and [listConnectedDevices]. *)
Fixpoint listDevices_loop (lines : list string) (deviceList : list BluetoothDevice)
    : Result (list BluetoothDevice) :=
  match lines with
  | [] => Ok deviceList
  | x :: lines' =>
      let* (id, _) := unpack2 (Py.split1 " " (Py.removeprefix "Device " x)) in
      let* d := deviceInfo id in
      listDevices_loop lines' (deviceList ++ [d])%list
  end.

Definition listDevices : Result (list BluetoothDevice) :=
  listDevices_loop (Py.splitlines (tool ["bluetoothctl"; "devices"])) [].

Definition listConnectedDevices : Result (list BluetoothDevice) :=
  listDevices_loop (Py.splitlines (tool ["bluetoothctl"; "devices"; "Connected"])) [].

(** [disconnectDevice] and [connectDevice] return the outcome, the
    argument after the call and the log of launched commands. *)
Definition disconnectDevice (btDevice : pyobj) (launched : list Process)
    : Result unit * pyobj * list Process :=
  match btDevice with
  | PyDevice d =>
      let '(d', launched') := disconnect d currentWorkingDir launched in
      (Ok tt, PyDevice d', launched')
  | PyStr s =>
      (Ok tt, btDevice,
       runDetachedProcess ["bluetoothctl"; "disconnect"; s] currentWorkingDir launched)
  | _ => (Raise TypeError, btDevice, launched)
  end.

Definition connectDevice (btDevice : pyobj) (launched : list Process)
    : Result unit * pyobj * list Process :=
  match btDevice with
  | PyDevice d =>
      let '(d', launched') := connect d currentWorkingDir launched in
      (Ok tt, PyDevice d', launched')
  | PyStr s =>
      (Ok tt, btDevice,
       runDetachedProcess ["bluetoothctl"; "connect"; s] currentWorkingDir launched)
  | _ => (Raise TypeError, btDevice, launched)
  end.

End Control.

(** ** class Plugin *)

Record Plugin : Type := { bluetoothDevices : list BluetoothDevice }.

Section PluginMethods.

Variable tool : list string -> string.
Variable pluginDir : string.

(** The cache is emptied first, so a failing listing leaves it empty. *)
Definition updateIndexItems (self : Plugin) : Result unit * Plugin :=
  let self := {| bluetoothDevices := [] |} in
  match listDevices tool with
  | Ok devices =>
      (Ok tt,
       fold_left
         (fun p device => {| bluetoothDevices := (bluetoothDevices p ++ [device])%list |})
         devices self)
  | Raise e => (Raise e, self)
  end.

Definition handleGlobalQuery (self : Plugin) (query : Query) : list RankItem :=
  if String.eqb (trigger query) "" then []
  else
    let s := Py.lower (Py.strip (query_string query)) in
    fold_left
      (fun filtered device =>
         if Py.is_empty s || Py.contains s (Py.lower (name device))
         then (filtered ++ [rankItem pluginDir device])%list
         else filtered)
      (bluetoothDevices self) [].

End PluginMethods.

(** ** Payloads *)

Definition NL : string := String Py.LF EmptyString.

(** The text whose lines are [ls], each ended by a line feed. *)
Fixpoint text (ls : list string) : string :=
  match ls with
  | [] => EmptyString
  | l :: ls' => l ++ NL ++ text ls'
  end.

Definition bt (info : string) : list string -> string := fun _ => info.

(** A listing line [Device <id> <rest>]. *)
Definition listing_line (e : string * string) : string :=
  "Device " ++ fst e ++ " " ++ snd e.

(** ** Vocabulary of the statements *)

(** [c in s] for a single character. *)
Definition has_char (c : ascii) (s : string) : bool :=
  Py.contains (String c EmptyString) s.

Fixpoint all_chars (p : ascii -> bool) (s : string) : bool :=
  match s with
  | EmptyString => true
  | String c s' => p c && all_chars p s'
  end.

Definition no_linebreak (s : string) : bool :=
  all_chars (fun c => negb (Py.islinebreak c)) s.

(** The key of a detail line as [deviceInfo] computes it (lines 117-119),
    when the line has a separator. *)
Definition key_of (x : string) : option string :=
  match Py.partition ":" (Py.strip x) with
  | Some (k, _) => Some (Py.lower (Py.strip k))
  | None => None
  end.

(** The lowercased value of a detail line (line 120). *)
Definition value_of (x : string) : option string :=
  match Py.partition ":" (Py.strip x) with
  | Some (_, raw) => Some (Py.lower (Py.strip raw))
  | None => None
  end.

Definition has_key (k : string) (x : string) : bool :=
  match key_of x with
  | Some k' => String.eqb k' k
  | None => false
  end.

(** A listing entry is well formed when its id has no blank and neither
    its id nor the rest of its line has a line boundary. *)
Definition well_formed (e : string * string) : bool :=
  negb (has_char " " (fst e)) && no_linebreak (fst e) && no_linebreak (snd e).

(** [sub] occurs in [s]. *)
Definition substring (sub s : string) : Prop :=
  exists pre post, s = pre ++ sub ++ post.

Definition launches {A B C : Type} (r : A * B * C) : C := snd r.

(** The lines of the detail block that [deviceInfo] reads for an id. *)
Definition info_lines (tool : list string -> string) (i : string) : list string :=
  Py.splitlines (tool ["bluetoothctl"; "info"; i]).

(** A stand-in for the external tool: a fixed listing and a detail block
    per id. *)
Definition bluetoothctl (listing : string) (info : string -> string)
    (argv : list string) : string :=
  match argv with
  | [_; sub] => if String.eqb sub "devices" then listing else ""
  | [_; sub; arg] => if String.eqb sub "info" then info arg else ""
  | _ => ""
  end.

(** The devices that [handleGlobalQuery] keeps for the stripped,
    lowercased query [s]. *)
Definition selected (s : string) (device : BluetoothDevice) : bool :=
  Py.is_empty s || Py.contains s (Py.lower (name device)).

(** The value of a detail line as [deviceInfo] stores it in [name]
    (line 122): stripped, letter case kept. *)
Definition raw_of (x : string) : option string :=
  match Py.partition ":" (Py.strip x) with
  | Some (_, raw) => Some (Py.strip raw)
  | None => None
  end.

(** The id that the listing loop takes from a line (lines 140 and 156),
    when the unpacking succeeds. *)
Definition line_id (x : string) : option string :=
  match Py.partition " " (Py.removeprefix "Device " x) with
  | Some (i, _) => Some i
  | None => None
  end.

(** A listing line the loop gets through: it yields an id, and every line
    of that id's detail block has a separator. *)
Definition line_ok (tool : list string -> string) (x : string) : bool :=
  match line_id x with
  | Some i => forallb (has_char ":") (info_lines tool i)
  | None => false
  end.

(** Calling the closure of an action ([lambda: self.connect(...)] or
    [lambda: self.disconnect(...)]) on the device in its current state. *)
Definition invoke (a : Action) (self : BluetoothDevice) (launched : list Process)
    : BluetoothDevice * list Process :=
  match action_callable a with
  | CallConnect workingDir => connect self workingDir launched
  | CallDisconnect workingDir => disconnect self workingDir launched
  end.

(** A stand-in for the external tool with both listings. *)
Definition bluetoothctl_both (listing connected_listing : string)
    (info : string -> string) (argv : list string) : string :=
  match argv with
  | [_; sub] => if String.eqb sub "devices" then listing else ""
  | [_; sub; arg] =>
      if String.eqb sub "info" then info arg
      else if String.eqb sub "devices" && String.eqb arg "Connected"
           then connected_listing else ""
  | _ => ""
  end.

(** ** Strings *)

Lemma has_char_cons (c b : ascii) (s : string) :
  has_char c (String b s) = Ascii.eqb c b || has_char c s.
Proof.
  unfold has_char. simpl. now rewrite andb_true_r.
Qed.

Lemma has_char_nil (c : ascii) : has_char c "" = false.
Proof. reflexivity. Qed.

Lemma has_char_app (c : ascii) (a b : string) :
  has_char c (a ++ b) = has_char c a || has_char c b.
Proof.
  induction a as [|x a IH]; [reflexivity|].
  change (String x a ++ b) with (String x (a ++ b)).
  rewrite !has_char_cons, IH. now rewrite orb_assoc.
Qed.

Lemma has_char_rev (c : ascii) (s : string) : has_char c (Py.rev s) = has_char c s.
Proof.
  induction s as [|x s IH]; [reflexivity|].
  simpl Py.rev. rewrite has_char_app, IH, !has_char_cons, has_char_nil.
  rewrite orb_false_r. apply orb_comm.
Qed.

Lemma has_char_lstrip (c : ascii) (s : string) :
  Py.isspace c = false -> has_char c (Py.lstrip s) = has_char c s.
Proof.
  intros Hc. induction s as [|x s IH]; [reflexivity|].
  simpl Py.lstrip. destruct (Py.isspace x) eqn:Hx; [|reflexivity].
  rewrite IH, has_char_cons.
  destruct (Ascii.eqb_spec c x) as [->|_]; [congruence | reflexivity].
Qed.

Lemma has_char_strip (c : ascii) (s : string) :
  Py.isspace c = false -> has_char c (Py.strip s) = has_char c s.
Proof.
  intros Hc. unfold Py.strip, Py.rstrip.
  now rewrite has_char_rev, has_char_lstrip, has_char_rev, has_char_lstrip.
Qed.

Lemma partition_None (sep : ascii) (s : string) :
  Py.partition sep s = None <-> has_char sep s = false.
Proof.
  induction s as [|c s IH]; simpl.
  - now split.
  - rewrite has_char_cons. rewrite (Ascii.eqb_sym sep c).
    destruct (Ascii.eqb c sep); simpl.
    + split; discriminate.
    + destruct (Py.partition sep s) as [[a b]|].
      * split; [discriminate|]. intros H. apply IH in H. discriminate.
      * split; [|reflexivity]. intros _. now apply IH.
Qed.

Lemma partition_app (sep : ascii) (a b : string) :
  has_char sep a = false -> Py.partition sep (a ++ String sep b) = Some (a, b).
Proof.
  induction a as [|c a IH]; simpl; intros H.
  - now rewrite Ascii.eqb_refl.
  - rewrite has_char_cons in H. apply orb_false_elim in H as [H1 H2].
    rewrite Ascii.eqb_sym, H1. now rewrite IH.
Qed.

Lemma split1_colon (x : string) :
  has_char ":" x = true ->
  exists k raw, Py.split1 ":" (Py.strip x) = [k; raw]
                /\ Py.partition ":" (Py.strip x) = Some (k, raw).
Proof.
  intros H. unfold Py.split1.
  destruct (Py.partition ":" (Py.strip x)) as [[k raw]|] eqn:E.
  - now exists k, raw.
  - apply partition_None in E. rewrite has_char_strip in E by reflexivity. congruence.
Qed.

Lemma split1_no_colon (x : string) :
  has_char ":" x = false -> Py.split1 ":" (Py.strip x) = [Py.strip x].
Proof.
  intros H. unfold Py.split1.
  assert (E : Py.partition ":" (Py.strip x) = None).
  { apply partition_None. now rewrite has_char_strip. }
  now rewrite E.
Qed.

Lemma splitlines_line (l rest : string) :
  no_linebreak l = true ->
  Py.splitlines (l ++ NL ++ rest) = l :: Py.splitlines rest.
Proof.
  induction l as [|c l IH]; intros H.
  - reflexivity.
  - simpl in H. apply andb_true_iff in H as [Hc Hl].
    apply negb_true_iff in Hc.
    change (String c l ++ NL ++ rest) with (String c (l ++ NL ++ rest)).
    cbn [Py.splitlines]. rewrite Hc, (IH Hl). reflexivity.
Qed.

Lemma splitlines_text (ls : list string) :
  forallb no_linebreak ls = true -> Py.splitlines (text ls) = ls.
Proof.
  induction ls as [|l ls IH]; cbn [text forallb]; intros H; [reflexivity|].
  apply andb_true_iff in H as [Hl Hls].
  now rewrite splitlines_line, IH.
Qed.

Lemma startswith_spec (p s : string) :
  Py.startswith p s = true <-> exists t, s = p ++ t.
Proof.
  revert s. induction p as [|a p IH]; intros s; simpl.
  - split; [intros _; now exists s | reflexivity].
  - destruct s as [|b s].
    + split; [discriminate | intros [t Ht]; discriminate].
    + rewrite andb_true_iff, IH. split.
      * intros [Hab [t ->]]. apply Ascii.eqb_eq in Hab as ->. now exists t.
      * intros [t Ht]. injection Ht as -> ->. split; [apply Ascii.eqb_refl | now exists t].
Qed.

Lemma contains_spec (sub s : string) :
  Py.contains sub s = true <-> substring sub s.
Proof.
  unfold substring. induction s as [|c s IH]; simpl.
  - rewrite orb_false_r, startswith_spec. split.
    + intros [t Ht]. exists "", t. exact Ht.
    + intros [pre [post H]]. destruct pre; [now exists post | discriminate].
  - rewrite orb_true_iff, startswith_spec, IH. split.
    + intros [[t Ht] | [pre [post H]]].
      * exists "", t. exact Ht.
      * exists (String c pre), post. simpl. now rewrite H.
    + intros [pre [post H]]. destruct pre as [|x pre].
      * left. now exists post.
      * right. simpl in H. injection H as _ H. now exists pre, post.
Qed.

Lemma lower_empty (s : string) : Py.lower s = "" <-> s = "".
Proof. destruct s; simpl; split; intros H; try reflexivity; discriminate. Qed.

Lemma is_empty_spec (s : string) : Py.is_empty s = true <-> s = "".
Proof. destruct s; simpl; split; intros H; try reflexivity; discriminate. Qed.



(** ** The detail parser: one line, then the loop *)

Ltac split_all := repeat match goal with |- _ /\ _ => split end.

Lemma deviceInfo_line_no_sep (x : string) (v : InfoVars) :
  has_char ":" x = false -> deviceInfo_line x v = Raise ValueError.
Proof.
  intros H. unfold deviceInfo_line. now rewrite (split1_no_colon x H).
Qed.

Lemma deviceInfo_line_sep (x : string) (v : InfoVars) :
  has_char ":" x = true -> exists v', deviceInfo_line x v = Ok v'.
Proof.
  intros H. destruct (split1_colon x H) as (k & raw & E & _).
  unfold deviceInfo_line. rewrite E. cbn [unpack2 bind].
  repeat match goal with |- context [if ?b then _ else _] => destruct b end;
    eexists; reflexivity.
Qed.

Lemma deviceInfo_line_raises (x : string) (v : InfoVars) (e : exn) :
  deviceInfo_line x v = Raise e -> e = ValueError /\ has_char ":" x = false.
Proof.
  destruct (has_char ":" x) eqn:H.
  - destruct (deviceInfo_line_sep x v H) as [v' E]. rewrite E. discriminate.
  - rewrite (deviceInfo_line_no_sep x v H). intros [= <-]. now split.
Qed.

(** What one accepted line does to each of the three variables. *)
Lemma deviceInfo_line_vars (x : string) (v v' : InfoVars) :
  deviceInfo_line x v = Ok v' ->
  (has_key "name" x = false -> v_name v' = v_name v)
  /\ (has_key "icon" x = false -> v_icon v' = v_icon v)
  /\ (has_key "connected" x = false -> v_connected v' = v_connected v)
  /\ (has_key "connected" x = true ->
      exists value, value_of x = Some value
                    /\ v_connected v' = String.eqb value "yes").
Proof.
  unfold deviceInfo_line, Py.split1, has_key, key_of, value_of.
  destruct (Py.partition ":" (Py.strip x)) as [[k raw]|]; [|discriminate].
  cbn [unpack2 bind].
  destruct (String.eqb (Py.lower (Py.strip k)) "name") eqn:En.
  { apply String.eqb_eq in En. rewrite En. intros [= <-]. cbn.
    split_all; intros; try reflexivity; discriminate. }
  destruct (String.eqb (Py.lower (Py.strip k)) "connected") eqn:Ec.
  { apply String.eqb_eq in Ec. rewrite Ec. intros [= <-]. cbn.
    split_all; intros; try reflexivity; try discriminate.
    eexists; split; reflexivity. }
  destruct (String.eqb (Py.lower (Py.strip k)) "icon") eqn:Ei.
  { intros [= <-]. cbn.
    split_all; intros; try reflexivity; discriminate. }
  intros [= <-]. split_all; intros; try reflexivity; discriminate.
Qed.

Lemma deviceInfo_loop_app (a b : list string) (v : InfoVars) :
  deviceInfo_loop (a ++ b)%list v = bind (deviceInfo_loop a v) (deviceInfo_loop b).
Proof.
  revert v. induction a as [|x a IH]; intros v; cbn [deviceInfo_loop app bind].
  - reflexivity.
  - destruct (deviceInfo_line x v) as [v'|e]; cbn [bind]; [apply IH | reflexivity].
Qed.

Lemma deviceInfo_loop_total (lines : list string) (v : InfoVars) :
  forallb (has_char ":") lines = true -> exists v', deviceInfo_loop lines v = Ok v'.
Proof.
  revert v. induction lines as [|x lines IH]; intros v H; cbn [deviceInfo_loop].
  - now exists v.
  - cbn [forallb] in H. apply andb_true_iff in H as [Hx Hl].
    destruct (deviceInfo_line_sep x v Hx) as [v' ->]. cbn [bind]. now apply IH.
Qed.

Lemma deviceInfo_loop_raises (lines : list string) (v : InfoVars) :
  forallb (has_char ":") lines = false -> deviceInfo_loop lines v = Raise ValueError.
Proof.
  revert v. induction lines as [|x lines IH]; intros v H; cbn [deviceInfo_loop].
  - discriminate.
  - cbn [forallb] in H. destruct (has_char ":" x) eqn:Hx.
    + destruct (deviceInfo_line_sep x v Hx) as [v' ->]. cbn [bind]. now apply IH.
    + now rewrite (deviceInfo_line_no_sep x v Hx).
Qed.

(** A variable keeps its value across lines that do not carry its key. *)
Lemma deviceInfo_loop_keeps (lines : list string) (v v' : InfoVars) :
  deviceInfo_loop lines v = Ok v' ->
  (forallb (fun x => negb (has_key "name" x)) lines = true -> v_name v' = v_name v)
  /\ (forallb (fun x => negb (has_key "icon" x)) lines = true -> v_icon v' = v_icon v)
  /\ (forallb (fun x => negb (has_key "connected" x)) lines = true ->
      v_connected v' = v_connected v).
Proof.
  revert v. induction lines as [|x lines IH]; intros v; cbn [deviceInfo_loop].
  - intros [= <-]. now split_all.
  - destruct (deviceInfo_line x v) as [v1|e] eqn:E1; cbn [bind]; [|discriminate].
    intros E. destruct (IH _ E) as (Hn & Hi & Hc).
    destruct (deviceInfo_line_vars x v v1 E1) as (Ln & Li & Lc & _).
    cbn [forallb]. split_all; intros H; apply andb_true_iff in H as [Hx Hl];
      apply negb_true_iff in Hx.
    + now rewrite (Hn Hl), (Ln Hx).
    + now rewrite (Hi Hl), (Li Hx).
    + now rewrite (Hc Hl), (Lc Hx).
Qed.

(** The last line that carries the key [connected] decides the flag. *)
Lemma deviceInfo_loop_last_connected
    (pre post : list string) (x value : string) (v v' : InfoVars) :
  deviceInfo_loop (pre ++ x :: post)%list v = Ok v' ->
  has_key "connected" x = true ->
  value_of x = Some value ->
  forallb (fun y => negb (has_key "connected" y)) post = true ->
  v_connected v' = String.eqb value "yes".
Proof.
  rewrite deviceInfo_loop_app.
  destruct (deviceInfo_loop pre v) as [v1|e]; cbn [bind deviceInfo_loop]; [|discriminate].
  destruct (deviceInfo_line x v1) as [v2|e] eqn:E2; cbn [bind]; [|discriminate].
  intros E Hk Hv Hpost.
  destruct (deviceInfo_loop_keeps post v2 v' E) as (_ & _ & Hc).
  rewrite (Hc Hpost).
  destruct (deviceInfo_line_vars x v1 v2 E2) as (_ & _ & _ & Lc).
  destruct (Lc Hk) as (value' & Hv' & ->). congruence.
Qed.

Lemma deviceInfo_unfold (tool : list string -> string) (i : string) :
  deviceInfo tool i =
  bind (deviceInfo_loop (Py.splitlines (tool ["bluetoothctl"; "info"; i]))
          {| v_name := "Bluetooth Device " ++ i; v_connected := false; v_icon := None |})
       (fun v => Ok {| id := i; name := v_name v; icon := v_icon v;
                       connected := v_connected v |}).
Proof. reflexivity. Qed.

Lemma deviceInfo_returns (tool : list string -> string) (i : string) :
  forallb (has_char ":") (info_lines tool i) = true ->
  exists d, deviceInfo tool i = Ok d.
Proof.
  intros H. rewrite deviceInfo_unfold. fold (info_lines tool i).
  destruct (deviceInfo_loop_total (info_lines tool i)
              {| v_name := "Bluetooth Device " ++ i; v_connected := false;
                 v_icon := None |} H) as [v ->].
  cbn [bind]. eexists; reflexivity.
Qed.

(** ** Properties of [deviceInfo] *)

(** The scenario of the specification: a block with the three fields. *)
Example scenario_spec :
  deviceInfo (bt (text ["Name: Foo"; "Connected: yes"; "Icon: audio-headset"])) "AA:BB"
  = Ok {| id := "AA:BB"; name := "Foo"; icon := Some "audio-headset"; connected := true |}.
Proof. reflexivity. Qed.

(** C1 (as amended): when every line of the detail block has a [:]
    separator, [deviceInfo] returns a record for the id, with the default
    name, flag and icon for the fields no line supplies; a line without
    separator is not skipped: the unpacking fails and the whole call
    raises [ValueError]. *)
Theorem deviceInfo_separator_policy (tool : list string -> string) (i : string) :
  (forallb (has_char ":") (info_lines tool i) = true ->
   exists d, deviceInfo tool i = Ok d
     /\ id d = i
     /\ (forallb (fun x => negb (has_key "name" x)) (info_lines tool i) = true ->
         name d = "Bluetooth Device " ++ i)
     /\ (forallb (fun x => negb (has_key "connected" x)) (info_lines tool i) = true ->
         connected d = false)
     /\ (forallb (fun x => negb (has_key "icon" x)) (info_lines tool i) = true ->
         icon d = None))
  /\ (forallb (has_char ":") (info_lines tool i) = false ->
      deviceInfo tool i = Raise ValueError).
Proof.
  rewrite deviceInfo_unfold. fold (info_lines tool i). split; intros H.
  - destruct (deviceInfo_loop_total (info_lines tool i)
                {| v_name := "Bluetooth Device " ++ i; v_connected := false;
                   v_icon := None |} H) as [v E].
    rewrite E. cbn [bind]. eexists; split; [reflexivity|].
    destruct (deviceInfo_loop_keeps _ _ _ E) as (Hn & Hi & Hc).
    cbn [id name icon connected]. split_all; auto.
  - now rewrite deviceInfo_loop_raises.
Qed.

Lemma deviceInfo_separator_policy_witness :
  exists d,
    deviceInfo (bt (text ["Alias: Foo"; "Paired: yes"])) "AA:BB" = Ok d
    /\ id d = "AA:BB"
    /\ name d = "Bluetooth Device AA:BB"
    /\ connected d = false
    /\ icon d = None.
Proof.
  destruct (proj1 (deviceInfo_separator_policy
                     (bt (text ["Alias: Foo"; "Paired: yes"])) "AA:BB") eq_refl)
    as (d & E & Hid & Hn & Hc & Hi).
  exists d. split_all; [exact E | exact Hid | exact (Hn eq_refl)
                       | exact (Hc eq_refl) | exact (Hi eq_refl)].
Defined.

(** C1, counterexample: the second line of this detail block has no
    separator, and no record is produced. *)
Lemma deviceInfo_malformed_line_aborts :
  info_lines (bt (text ["Name: Foo"; "0a 1b 2c"; "Connected: yes"])) "AA:BB"
    = ["Name: Foo"; "0a 1b 2c"; "Connected: yes"]
  /\ has_char ":" "0a 1b 2c" = false
  /\ deviceInfo (bt (text ["Name: Foo"; "0a 1b 2c"; "Connected: yes"])) "AA:BB"
     = Raise ValueError.
Proof. split_all; reflexivity. Qed.

(** C4 (as amended): for a detail block that [deviceInfo] parses, the
    last line whose key is [connected] (in any letter case) decides the
    flag: it is true exactly when that line's value is [yes] (in any
    letter case); with no such line the flag is false. *)
Theorem deviceInfo_connected_flag
    (tool : list string -> string) (i : string) (d : BluetoothDevice) :
  deviceInfo tool i = Ok d ->
  (forall pre x post value,
      info_lines tool i = (pre ++ x :: post)%list ->
      has_key "connected" x = true ->
      value_of x = Some value ->
      forallb (fun y => negb (has_key "connected" y)) post = true ->
      connected d = String.eqb value "yes")
  /\ (forallb (fun y => negb (has_key "connected" y)) (info_lines tool i) = true ->
      connected d = false).
Proof.
  rewrite deviceInfo_unfold. fold (info_lines tool i).
  destruct (deviceInfo_loop (info_lines tool i) _) as [v|e] eqn:E; cbn [bind];
    [|discriminate].
  intros [= <-]. cbn [connected]. split.
  - intros pre x post value Hl Hk Hv Hpost. rewrite Hl in E.
    exact (deviceInfo_loop_last_connected pre post x value _ v E Hk Hv Hpost).
  - intros H. destruct (deviceInfo_loop_keeps _ _ _ E) as (_ & _ & Hc).
    exact (Hc H).
Qed.

Lemma deviceInfo_connected_flag_witness :
  deviceInfo (bt (text ["Name: Foo"; " cOnNeCtEd : YeS "; "Paired: no"])) "AA:BB"
    = Ok {| id := "AA:BB"; name := "Foo"; icon := None; connected := true |}
  /\ connected {| id := "AA:BB"; name := "Foo"; icon := None; connected := true |}
     = String.eqb "yes" "yes".
Proof.
  split; [reflexivity|].
  exact (proj1 (deviceInfo_connected_flag
                  (bt (text ["Name: Foo"; " cOnNeCtEd : YeS "; "Paired: no"])) "AA:BB"
                  {| id := "AA:BB"; name := "Foo"; icon := None; connected := true |}
                  eq_refl)
               ["Name: Foo"] " cOnNeCtEd : YeS " ["Paired: no"] "yes"
               eq_refl eq_refl eq_refl eq_refl).
Defined.

(** C4, counterexample: the block has a line [Connected: yes], a later
    [Connected] line overrides it, and the flag is false. *)
Lemma deviceInfo_connected_overridden :
  info_lines (bt (text ["Connected: yes"; "Connected: no"])) "AA:BB"
    = ["Connected: yes"; "Connected: no"]
  /\ has_key "connected" "Connected: yes" = true
  /\ value_of "Connected: yes" = Some "yes"
  /\ deviceInfo (bt (text ["Connected: yes"; "Connected: no"])) "AA:BB"
     = Ok {| id := "AA:BB"; name := "Bluetooth Device AA:BB"; icon := None;
             connected := false |}.
Proof. split_all; reflexivity. Qed.

(** ** Properties of [listDevices] *)

Lemma all_chars_app (p : ascii -> bool) (a b : string) :
  all_chars p (a ++ b) = all_chars p a && all_chars p b.
Proof.
  induction a as [|c a IH]; simpl; [reflexivity|]. now rewrite IH, andb_assoc.
Qed.

Lemma well_formed_line (e : string * string) :
  well_formed e = true -> no_linebreak (listing_line e) = true.
Proof.
  unfold well_formed, listing_line, no_linebreak. intros H.
  apply andb_true_iff in H as [H Hr]. apply andb_true_iff in H as [_ Hi].
  rewrite !all_chars_app. unfold no_linebreak in Hi, Hr. rewrite Hi, Hr. reflexivity.
Qed.

Lemma well_formed_split (e : string * string) :
  well_formed e = true ->
  Py.split1 " " (Py.removeprefix "Device " (listing_line e)) = [fst e; snd e].
Proof.
  unfold well_formed, listing_line. intros H.
  apply andb_true_iff in H as [H _]. apply andb_true_iff in H as [Hs _].
  apply negb_true_iff in Hs.
  change (Py.removeprefix "Device " ("Device " ++ fst e ++ " " ++ snd e))
    with (fst e ++ String " " (snd e)).
  unfold Py.split1. now rewrite partition_app.
Qed.

Lemma splitlines_listing (entries : list (string * string)) :
  forallb well_formed entries = true ->
  Py.splitlines (text (map listing_line entries)) = map listing_line entries.
Proof.
  intros H. apply splitlines_text. rewrite forallb_forall in *.
  intros l Hl. apply in_map_iff in Hl as (e & <- & He).
  apply well_formed_line. now apply H.
Qed.

Lemma deviceInfo_id (tool : list string -> string) (i : string) (d : BluetoothDevice) :
  deviceInfo tool i = Ok d -> id d = i.
Proof.
  rewrite deviceInfo_unfold.
  destruct (deviceInfo_loop _ _) as [v|e]; cbn [bind]; [|discriminate].
  now intros [= <-].
Qed.

Lemma listDevices_loop_entries
    (tool : list string -> string) (entries : list (string * string))
    (deviceList : list BluetoothDevice) :
  forallb well_formed entries = true ->
  (forall e, In e entries -> forallb (has_char ":") (info_lines tool (fst e)) = true) ->
  exists ds,
    listDevices_loop tool (map listing_line entries) deviceList
      = Ok (deviceList ++ ds)%list
    /\ map id ds = map fst entries.
Proof.
  revert deviceList. induction entries as [|e entries IH]; intros deviceList Hwf Hinfo.
  - exists []. cbn. now rewrite app_nil_r.
  - cbn [forallb] in Hwf. apply andb_true_iff in Hwf as [He Hwf].
    cbn [map listDevices_loop]. rewrite (well_formed_split e He). cbn [unpack2 bind].
    destruct (deviceInfo_returns tool (fst e) (Hinfo e (or_introl eq_refl)))
      as (d & Ed).
    pose proof (deviceInfo_id tool (fst e) d Ed) as Hid.
    rewrite Ed. cbn [bind].
    destruct (IH (deviceList ++ [d])%list Hwf
                (fun e' H' => Hinfo e' (or_intror H'))) as (ds & -> & Hds).
    exists (d :: ds). split.
    + now rewrite <- app_assoc.
    + cbn [map]. now rewrite Hid, Hds.
Qed.

(** C5 (as amended): an empty listing gives an empty device list; a
    listing of N well-formed [Device <id> <rest>] lines gives exactly N
    records whose ids are the listed ids in the listing's order, provided
    the detail block of each listed id has a separator on every line (the
    loop calls [deviceInfo] for each id). *)
Theorem listDevices_ids_in_order (tool : list string -> string) :
  (tool ["bluetoothctl"; "devices"] = "" -> listDevices tool = Ok [])
  /\ (forall entries,
        tool ["bluetoothctl"; "devices"] = text (map listing_line entries) ->
        forallb well_formed entries = true ->
        (forall e, In e entries ->
                   forallb (has_char ":") (info_lines tool (fst e)) = true) ->
        exists ds, listDevices tool = Ok ds
                   /\ map id ds = map fst entries
                   /\ length ds = length entries).
Proof.
  unfold listDevices. split.
  - intros ->. reflexivity.
  - intros entries -> Hwf Hinfo. rewrite (splitlines_listing entries Hwf).
    destruct (listDevices_loop_entries tool entries [] Hwf Hinfo) as (ds & -> & Hds).
    exists ds. split_all; [reflexivity | exact Hds |].
    now rewrite <- (length_map id ds), Hds, length_map.
Qed.

Lemma listDevices_ids_in_order_witness :
  exists ds,
    listDevices
      (bluetoothctl (text ["Device AA:BB Foo"; "Device CC:DD Bar Baz"])
                    (fun _ => text ["Name: Foo"; "Connected: yes"]))
    = Ok ds
    /\ map id ds = ["AA:BB"; "CC:DD"]
    /\ length ds = 2.
Proof.
  apply (proj2 (listDevices_ids_in_order
                  (bluetoothctl (text ["Device AA:BB Foo"; "Device CC:DD Bar Baz"])
                                (fun _ => text ["Name: Foo"; "Connected: yes"])))
               [("AA:BB", "Foo"); ("CC:DD", "Bar Baz")]).
  - reflexivity.
  - reflexivity.
  - intros e He. reflexivity.
Defined.

(** C5, counterexample: one well-formed listing line, but the detail
    block of its id has a line without separator: no list is produced. *)
Lemma listDevices_detail_aborts :
  bluetoothctl (text ["Device AA:BB Foo"]) (fun _ => text ["Name: Foo"; "0a 1b 2c"])
               ["bluetoothctl"; "devices"]
    = text (map listing_line [("AA:BB", "Foo")])
  /\ forallb well_formed [("AA:BB", "Foo")] = true
  /\ listDevices
       (bluetoothctl (text ["Device AA:BB Foo"])
                     (fun _ => text ["Name: Foo"; "0a 1b 2c"]))
     = Raise ValueError.
Proof. split_all; reflexivity. Qed.

(** ** Properties of the query handler *)

Lemma fold_left_select {A B : Type} (p : A -> bool) (f : A -> B) (l : list A)
    (acc : list B) :
  fold_left (fun filtered x => if p x then (filtered ++ [f x])%list else filtered) l acc
  = (acc ++ map f (filter p l))%list.
Proof.
  revert acc. induction l as [|x l IH]; intros acc; cbn [fold_left filter].
  - now rewrite app_nil_r.
  - rewrite IH. destruct (p x); [|reflexivity].
    cbn [map]. now rewrite <- app_assoc.
Qed.

Lemma handleGlobalQuery_eq (pluginDir : string) (self : Plugin) (query : Query) :
  handleGlobalQuery pluginDir self query =
  if String.eqb (trigger query) "" then []
  else map (rankItem pluginDir)
           (filter (selected (Py.lower (Py.strip (query_string query))))
                   (bluetoothDevices self)).
Proof.
  unfold handleGlobalQuery. destruct (String.eqb (trigger query) ""); [reflexivity|].
  cbv zeta. unfold selected. now rewrite fold_left_select.
Qed.

Lemma filter_all {A : Type} (p : A -> bool) (l : list A) :
  (forall x, p x = true) -> filter p l = l.
Proof.
  intros H. induction l as [|x l IH]; cbn [filter]; [reflexivity|].
  now rewrite H, IH.
Qed.

Lemma rankItem_id (pluginDir : string) (l : list BluetoothDevice) :
  map (fun r => item_id (rank_item r)) (map (rankItem pluginDir) l) = map id l.
Proof. rewrite map_map. reflexivity. Qed.

Lemma selected_spec (s : string) (d : BluetoothDevice) :
  selected s d = true <-> substring s (Py.lower (name d)).
Proof.
  unfold selected. rewrite orb_true_iff, contains_spec, is_empty_spec. split.
  - intros [-> | H]; [|exact H]. now exists "", (Py.lower (name d)).
  - intros H. now right.
Qed.

(** C2: with an active trigger, a query that is empty after [strip]
    yields one result per cached device, in order, with the same ids; in
    every case the results are the rank items of exactly those cached
    devices whose lowercased name contains the stripped, lowercased query
    as a substring. *)
Theorem handleGlobalQuery_matches (pluginDir : string) (self : Plugin) (query : Query) :
  trigger query <> "" ->
  (Py.strip (query_string query) = "" ->
   handleGlobalQuery pluginDir self query
     = map (rankItem pluginDir) (bluetoothDevices self)
   /\ map (fun r => item_id (rank_item r)) (handleGlobalQuery pluginDir self query)
      = map id (bluetoothDevices self))
  /\ (exists ds,
        handleGlobalQuery pluginDir self query = map (rankItem pluginDir) ds
        /\ forall d,
             In d ds <->
             In d (bluetoothDevices self)
             /\ substring (Py.lower (Py.strip (query_string query)))
                          (Py.lower (name d))).
Proof.
  intros Ht. apply String.eqb_neq in Ht.
  rewrite handleGlobalQuery_eq, Ht. split.
  - intros ->. rewrite filter_all by reflexivity. split; [reflexivity|].
    apply rankItem_id.
  - eexists; split; [reflexivity|].
    intros d. now rewrite filter_In, selected_spec.
Qed.

Lemma handleGlobalQuery_matches_witness :
  handleGlobalQuery "/plugin"
    {| bluetoothDevices :=
         [ {| id := "AA:BB"; name := "JBL Flip"; icon := None; connected := true |};
           {| id := "CC:DD"; name := "Keyboard"; icon := None; connected := false |} ] |}
    {| trigger := "bt "; query_string := "   " |}
  = map (rankItem "/plugin")
      [ {| id := "AA:BB"; name := "JBL Flip"; icon := None; connected := true |};
        {| id := "CC:DD"; name := "Keyboard"; icon := None; connected := false |} ].
Proof.
  refine (proj1 (proj1 (handleGlobalQuery_matches "/plugin" _
                          {| trigger := "bt "; query_string := "   " |} _) _)).
  - discriminate.
  - reflexivity.
Defined.

Example handleGlobalQuery_flip :
  handleGlobalQuery "/plugin"
    {| bluetoothDevices :=
         [ {| id := "AA:BB"; name := "JBL Flip"; icon := None; connected := true |};
           {| id := "CC:DD"; name := "Keyboard"; icon := None; connected := false |} ] |}
    {| trigger := "bt "; query_string := " fLiP " |}
  = [ rankItem "/plugin"
        {| id := "AA:BB"; name := "JBL Flip"; icon := None; connected := true |} ].
Proof. reflexivity. Qed.

(** C3: with the empty trigger the handler returns no result, whatever
    the cache and the query string are; with a trigger and an empty query
    string it returns one result per cached device. *)
Theorem handleGlobalQuery_no_trigger (pluginDir : string) (self : Plugin) :
  (forall query, trigger query = "" -> handleGlobalQuery pluginDir self query = [])
  /\ (forall query,
        trigger query <> "" -> query_string query = "" ->
        handleGlobalQuery pluginDir self query
          = map (rankItem pluginDir) (bluetoothDevices self)).
Proof.
  split; intros query Ht.
  - unfold handleGlobalQuery. now rewrite Ht.
  - intros Hq. apply String.eqb_neq in Ht.
    rewrite handleGlobalQuery_eq, Ht, Hq. now rewrite filter_all.
Qed.

Lemma handleGlobalQuery_no_trigger_witness :
  handleGlobalQuery "/plugin"
    {| bluetoothDevices :=
         [ {| id := "AA:BB"; name := "JBL Flip"; icon := None; connected := true |} ] |}
    {| trigger := ""; query_string := "jbl" |} = []
  /\ handleGlobalQuery "/plugin"
       {| bluetoothDevices :=
            [ {| id := "AA:BB"; name := "JBL Flip"; icon := None; connected := true |} ] |}
       {| trigger := "bt "; query_string := "" |}
     = map (rankItem "/plugin")
         [ {| id := "AA:BB"; name := "JBL Flip"; icon := None; connected := true |} ].
Proof.
  split.
  - exact (proj1 (handleGlobalQuery_no_trigger "/plugin" _)
                 {| trigger := ""; query_string := "jbl" |} eq_refl).
  - refine (proj2 (handleGlobalQuery_no_trigger "/plugin" _)
                  {| trigger := "bt "; query_string := "" |} _ eq_refl).
    discriminate.
Defined.

Lemma handleGlobalQuery_In (pluginDir : string) (self : Plugin) (query : Query)
    (r : RankItem) :
  In r (handleGlobalQuery pluginDir self query) ->
  exists d, In d (bluetoothDevices self) /\ r = rankItem pluginDir d.
Proof.
  rewrite handleGlobalQuery_eq. destruct (String.eqb (trigger query) ""); [intros []|].
  intros H. apply in_map_iff in H as (d & <- & Hd). apply filter_In in Hd as [Hd _].
  now exists d.
Qed.

(** C6: every result of a query is the rank item of a cached device and
    its score is one of two constants chosen by the connected flag alone:
    0.0 for a connected device, 1.0 for a disconnected one; the score of a
    connected device is the lower of the two. *)
Theorem rank_score_by_connected (pluginDir : string) (self : Plugin) (query : Query) :
  (forall r,
      In r (handleGlobalQuery pluginDir self query) ->
      exists d, In d (bluetoothDevices self)
                /\ r = rankItem pluginDir d
                /\ rank_score r = if connected d then 0%float else 1%float)
  /\ (forall d1 d2,
        connected d1 = true -> connected d2 = false ->
        PrimFloat.ltb (rank_score (rankItem pluginDir d1))
                      (rank_score (rankItem pluginDir d2)) = true).
Proof.
  split.
  - intros r H. destruct (handleGlobalQuery_In _ _ _ _ H) as (d & Hd & ->).
    exists d. now split_all.
  - intros d1 d2 H1 H2. cbn [rankItem rank_score]. rewrite H1, H2. reflexivity.
Qed.

Lemma rank_score_by_connected_witness :
  (exists d,
      In d [ {| id := "AA:BB"; name := "JBL Flip"; icon := None; connected := true |};
             {| id := "CC:DD"; name := "Keyboard"; icon := None; connected := false |} ]
      /\ rankItem "/plugin"
           {| id := "CC:DD"; name := "Keyboard"; icon := None; connected := false |}
         = rankItem "/plugin" d
      /\ rank_score
           (rankItem "/plugin"
              {| id := "CC:DD"; name := "Keyboard"; icon := None; connected := false |})
         = if connected d then 0%float else 1%float)
  /\ PrimFloat.ltb
       (rank_score (rankItem "/plugin"
          {| id := "AA:BB"; name := "JBL Flip"; icon := None; connected := true |}))
       (rank_score (rankItem "/plugin"
          {| id := "CC:DD"; name := "Keyboard"; icon := None; connected := false |}))
     = true.
Proof.
  pose proof (rank_score_by_connected "/plugin"
                {| bluetoothDevices :=
                     [ {| id := "AA:BB"; name := "JBL Flip"; icon := None;
                          connected := true |};
                       {| id := "CC:DD"; name := "Keyboard"; icon := None;
                          connected := false |} ] |}
                {| trigger := "bt "; query_string := "key" |}) as [H1 H2].
  split.
  - apply (H1 (rankItem "/plugin"
                 {| id := "CC:DD"; name := "Keyboard"; icon := None;
                    connected := false |})).
    left. reflexivity.
  - exact (H2 {| id := "AA:BB"; name := "JBL Flip"; icon := None; connected := true |}
              {| id := "CC:DD"; name := "Keyboard"; icon := None; connected := false |}
              eq_refl eq_refl).
Defined.

(** ** Properties of the actions *)




(** C9: for a raw id string both operations always launch the command;
    the check of the cached flag is made for a device record only, where a
    record already in the requested state launches nothing. *)
Theorem raw_id_always_launches
    (currentWorkingDir : string) (launched : list Process) :
  (forall s,
      connectDevice currentWorkingDir (PyStr s) launched
      = (Ok tt, PyStr s,
         (launched ++ [{| cmdln := ["bluetoothctl"; "connect"; s];
                          workdir := currentWorkingDir |}])%list)
      /\ disconnectDevice currentWorkingDir (PyStr s) launched
         = (Ok tt, PyStr s,
            (launched ++ [{| cmdln := ["bluetoothctl"; "disconnect"; s];
                             workdir := currentWorkingDir |}])%list))
  /\ (forall d,
        launches (connectDevice currentWorkingDir (PyDevice d) launched)
          = (if connected d then launched
             else (launched ++ [{| cmdln := ["bluetoothctl"; "connect"; id d];
                                   workdir := currentWorkingDir |}])%list)
        /\ launches (disconnectDevice currentWorkingDir (PyDevice d) launched)
           = (if connected d
              then (launched ++ [{| cmdln := ["bluetoothctl"; "disconnect"; id d];
                                    workdir := currentWorkingDir |}])%list
              else launched)).
Proof.
  split.
  - intros s. split; reflexivity.
  - intros d. unfold launches, connectDevice, disconnectDevice, connect, disconnect.
    destruct (connected d); split; reflexivity.
Qed.

(** C10: the category icon is returned only for a connected device that
    has one; a disconnected device gets [xdg:bluetooth-disabled] whether
    it has a category icon or not, and a connected device without one
    gets [xdg:bluetooth-active]. *)
Theorem getIcon_cases (self : BluetoothDevice) :
  (connected self = false -> getIcon self = "xdg:bluetooth-disabled")
  /\ (connected self = true -> icon self = None -> getIcon self = "xdg:bluetooth-active")
  /\ (forall category,
        connected self = true -> icon self = Some category ->
        getIcon self = "xdg:" ++ category).
Proof.
  unfold getIcon. split_all.
  - intros ->. now destruct (icon self).
  - now intros -> ->.
  - now intros category -> ->.
Qed.

Lemma getIcon_cases_witness :
  getIcon {| id := "AA:BB"; name := "Foo"; icon := Some "audio-headset";
             connected := false |} = "xdg:bluetooth-disabled"
  /\ getIcon {| id := "AA:BB"; name := "Foo"; icon := None; connected := true |}
     = "xdg:bluetooth-active"
  /\ getIcon {| id := "AA:BB"; name := "Foo"; icon := Some "audio-headset";
                connected := true |} = "xdg:audio-headset".
Proof.
  split_all.
  - exact (proj1 (getIcon_cases
             {| id := "AA:BB"; name := "Foo"; icon := Some "audio-headset";
                connected := false |})
           eq_refl).
  - exact (proj1 (proj2 (getIcon_cases
             {| id := "AA:BB"; name := "Foo"; icon := None; connected := true |}))
           eq_refl eq_refl).
  - exact (proj2 (proj2 (getIcon_cases
             {| id := "AA:BB"; name := "Foo"; icon := Some "audio-headset";
                connected := true |}))
           "audio-headset" eq_refl eq_refl).
Defined.

(** ** More on the string builtins *)

Lemma append_empty_r (s : string) : s ++ "" = s.
Proof. induction s as [|c s IH]; simpl; [reflexivity | now rewrite IH]. Qed.

Lemma append_assoc_r (a b c : string) : (a ++ b) ++ c = a ++ (b ++ c).
Proof. induction a as [|x a IH]; simpl; [reflexivity | now rewrite IH]. Qed.

Lemma rev_append (a b : string) : Py.rev (a ++ b) = Py.rev b ++ Py.rev a.
Proof.
  induction a as [|x a IH]; simpl.
  - now rewrite append_empty_r.
  - now rewrite IH, append_assoc_r.
Qed.

Lemma rev_rev (s : string) : Py.rev (Py.rev s) = s.
Proof.
  induction s as [|x s IH]; simpl; [reflexivity|].
  now rewrite rev_append, IH.
Qed.

Lemma lstrip_stop (a b : string) (c : ascii) :
  Py.isspace c = false ->
  Py.lstrip (a ++ String c b) = Py.lstrip a ++ String c b.
Proof.
  intros Hc. induction a as [|x a IH]; simpl.
  - now rewrite Hc.
  - destruct (Py.isspace x); [exact IH | reflexivity].
Qed.

Lemma rstrip_stop (a b : string) (c : ascii) :
  Py.isspace c = false ->
  Py.rstrip (a ++ String c b) = a ++ String c (Py.rstrip b).
Proof.
  intros Hc. unfold Py.rstrip.
  rewrite rev_append. simpl Py.rev at 1.
  rewrite append_assoc_r. simpl append at 2.
  rewrite (lstrip_stop (Py.rev b) (Py.rev a) c Hc).
  rewrite rev_append. simpl Py.rev at 1. rewrite rev_rev.
  now rewrite append_assoc_r.
Qed.

Lemma strip_stop (a b : string) (c : ascii) :
  Py.isspace c = false ->
  Py.strip (a ++ String c b) = Py.lstrip a ++ String c (Py.rstrip b).
Proof.
  intros Hc. unfold Py.strip. rewrite (lstrip_stop a b c Hc).
  now apply rstrip_stop.
Qed.

Lemma lstrip_head (s t : string) (c : ascii) :
  Py.lstrip s = String c t -> Py.isspace c = false.
Proof.
  induction s as [|x s IH]; simpl; [discriminate|].
  destruct (Py.isspace x) eqn:Hx; [exact IH|]. now intros [= <- _].
Qed.

Lemma lstrip_idem (s : string) : Py.lstrip (Py.lstrip s) = Py.lstrip s.
Proof.
  destruct (Py.lstrip s) as [|c t] eqn:E; [reflexivity|].
  simpl. now rewrite (lstrip_head s t c E).
Qed.

Lemma rstrip_idem (s : string) : Py.rstrip (Py.rstrip s) = Py.rstrip s.
Proof. unfold Py.rstrip. now rewrite rev_rev, lstrip_idem. Qed.

(** The white space that [lstrip] removes. *)
Lemma lstrip_split (s : string) :
  exists p, s = p ++ Py.lstrip s /\ all_chars Py.isspace p = true.
Proof.
  induction s as [|x s IH]; simpl.
  - now exists "".
  - destruct (Py.isspace x) eqn:Hx.
    + destruct IH as (p & Hp & Hall). exists (String x p). simpl.
      rewrite Hx, Hall. split; [now rewrite <- Hp | reflexivity].
    + now exists "".
Qed.

Lemma lstrip_blank (p : string) : all_chars Py.isspace p = true -> Py.lstrip p = "".
Proof.
  induction p as [|x p IH]; simpl; [reflexivity|].
  intros H. apply andb_true_iff in H as [-> H]. now apply IH.
Qed.

Lemma all_chars_rev (q : ascii -> bool) (s : string) :
  all_chars q (Py.rev s) = all_chars q s.
Proof.
  induction s as [|x s IH]; simpl; [reflexivity|].
  rewrite all_chars_app, IH. simpl. rewrite andb_true_r. apply andb_comm.
Qed.

Lemma rstrip_blank (p : string) : all_chars Py.isspace p = true -> Py.rstrip p = "".
Proof.
  intros H. unfold Py.rstrip. rewrite lstrip_blank; [reflexivity|].
  now rewrite all_chars_rev.
Qed.

Lemma lstrip_blank_prefix (p s : string) :
  all_chars Py.isspace p = true -> Py.lstrip (p ++ s) = Py.lstrip s.
Proof.
  induction p as [|x p IH]; simpl; [reflexivity|].
  intros H. apply andb_true_iff in H as [-> H]. now apply IH.
Qed.

Lemma strip_lstrip (s : string) : Py.strip (Py.lstrip s) = Py.strip s.
Proof. unfold Py.strip. now rewrite lstrip_idem. Qed.

Lemma strip_rstrip (s : string) : Py.strip (Py.rstrip s) = Py.strip s.
Proof.
  destruct (lstrip_split s) as (p & Hs & Hp).
  unfold Py.strip at 2.
  destruct (Py.lstrip s) as [|c t] eqn:E.
  - rewrite append_empty_r in Hs. subst p.
    rewrite (rstrip_blank s Hp). reflexivity.
  - pose proof (lstrip_head s t c E) as Hc.
    rewrite Hs at 1. rewrite (rstrip_stop p t c Hc).
    unfold Py.strip. rewrite (lstrip_blank_prefix p _ Hp).
    simpl Py.lstrip. rewrite Hc.
    change (String c (Py.rstrip t)) with ("" ++ String c (Py.rstrip t)).
    rewrite (rstrip_stop "" (Py.rstrip t) c Hc), rstrip_idem.
    change (String c t) with ("" ++ String c t).
    now rewrite (rstrip_stop "" t c Hc).
Qed.

Lemma strip_idem (s : string) : Py.strip (Py.strip s) = Py.strip s.
Proof. unfold Py.strip at 2. now rewrite strip_rstrip, strip_lstrip. Qed.

(** ** More on [deviceInfo] *)

(** What a line with the key [name] or [icon] assigns. *)
Lemma deviceInfo_line_assigns (x : string) (v v' : InfoVars) :
  deviceInfo_line x v = Ok v' ->
  (has_key "name" x = true -> raw_of x = Some (v_name v'))
  /\ (has_key "icon" x = true -> v_icon v' = value_of x).
Proof.
  unfold deviceInfo_line, Py.split1, has_key, key_of, value_of, raw_of.
  destruct (Py.partition ":" (Py.strip x)) as [[k raw]|]; [|discriminate].
  cbn [unpack2 bind].
  destruct (String.eqb (Py.lower (Py.strip k)) "name") eqn:En.
  { intros [= <-]. cbn. apply String.eqb_eq in En. rewrite En.
    split; intros; [reflexivity | discriminate]. }
  destruct (String.eqb (Py.lower (Py.strip k)) "connected") eqn:Ec.
  { intros [= <-]. cbn. apply String.eqb_eq in Ec. rewrite Ec.
    split; intros; discriminate. }
  destruct (String.eqb (Py.lower (Py.strip k)) "icon") eqn:Ei.
  { intros [= <-]. cbn. split; intros; [discriminate | reflexivity]. }
  intros [= <-]. split; intros; discriminate.
Qed.

(** A line with a separator and another key leaves the variables alone. *)
Lemma deviceInfo_line_other_key (x : string) (v : InfoVars) :
  has_char ":" x = true ->
  has_key "name" x = false -> has_key "connected" x = false ->
  has_key "icon" x = false ->
  deviceInfo_line x v = Ok v.
Proof.
  intros Hsep. destruct (split1_colon x Hsep) as (k & raw & E & P).
  unfold deviceInfo_line, has_key, key_of. rewrite E, P. cbn [unpack2 bind].
  now intros -> -> ->.
Qed.

(** X1: for a detail block that [deviceInfo] parses, the last line whose
    key is [name] gives the record's name, stripped and in its own letter
    case, and the last line whose key is [icon] gives the icon, stripped
    and lowercased; a block without such a line leaves the generated name
    [Bluetooth Device <id>], respectively no icon. *)
Theorem deviceInfo_name_icon_fields
    (tool : list string -> string) (i : string) (d : BluetoothDevice) :
  deviceInfo tool i = Ok d ->
  (forall pre x post,
      info_lines tool i = (pre ++ x :: post)%list ->
      has_key "name" x = true ->
      forallb (fun y => negb (has_key "name" y)) post = true ->
      raw_of x = Some (name d))
  /\ (forall pre x post,
        info_lines tool i = (pre ++ x :: post)%list ->
        has_key "icon" x = true ->
        forallb (fun y => negb (has_key "icon" y)) post = true ->
        icon d = value_of x /\ icon d <> None)
  /\ (forallb (fun y => negb (has_key "name" y)) (info_lines tool i) = true ->
      name d = "Bluetooth Device " ++ i)
  /\ (forallb (fun y => negb (has_key "icon" y)) (info_lines tool i) = true ->
      icon d = None).
Proof.
  rewrite deviceInfo_unfold. fold (info_lines tool i).
  destruct (deviceInfo_loop (info_lines tool i) _) as [v|e] eqn:E; cbn [bind];
    [|discriminate].
  intros [= <-]. cbn [name icon].
  assert (Hlast : forall pre x post,
             info_lines tool i = (pre ++ x :: post)%list ->
             exists v1 v2, deviceInfo_line x v1 = Ok v2
                           /\ deviceInfo_loop post v2 = Ok v).
  { intros pre x post Hl. rewrite Hl, deviceInfo_loop_app in E.
    destruct (deviceInfo_loop pre _) as [v1|e]; cbn [bind deviceInfo_loop] in E;
      [|discriminate].
    destruct (deviceInfo_line x v1) as [v2|e] eqn:E2; cbn [bind] in E; [|discriminate].
    now exists v1, v2. }
  split_all.
  - intros pre x post Hl Hk Hpost.
    destruct (Hlast pre x post Hl) as (v1 & v2 & E2 & E3).
    destruct (deviceInfo_loop_keeps post v2 v E3) as (Hn & _ & _).
    rewrite (Hn Hpost). exact (proj1 (deviceInfo_line_assigns x v1 v2 E2) Hk).
  - intros pre x post Hl Hk Hpost.
    destruct (Hlast pre x post Hl) as (v1 & v2 & E2 & E3).
    destruct (deviceInfo_loop_keeps post v2 v E3) as (_ & Hi & _).
    rewrite (Hi Hpost), (proj2 (deviceInfo_line_assigns x v1 v2 E2) Hk).
    split; [reflexivity|].
    unfold has_key, key_of in Hk. unfold value_of.
    destruct (Py.partition ":" (Py.strip x)) as [[k raw]|]; discriminate.
  - intros H. destruct (deviceInfo_loop_keeps _ _ _ E) as (Hn & _ & _). exact (Hn H).
  - intros H. destruct (deviceInfo_loop_keeps _ _ _ E) as (_ & Hi & _). exact (Hi H).
Qed.

Lemma deviceInfo_name_icon_fields_witness :
  raw_of "NAME:  JBL Flip " = Some "JBL Flip"
  /\ Some "audio-headset" = value_of " Icon: Audio-Headset".
Proof.
  destruct (deviceInfo_name_icon_fields
              (bt (text ["Name: old"; "NAME:  JBL Flip "; " Icon: Audio-Headset"]))
              "AA:BB"
              {| id := "AA:BB"; name := "JBL Flip"; icon := Some "audio-headset";
                 connected := false |}
              eq_refl) as (Hn & Hi & _ & _).
  split.
  - exact (Hn ["Name: old"] "NAME:  JBL Flip " [" Icon: Audio-Headset"]
              eq_refl eq_refl eq_refl).
  - exact (proj1 (Hi ["Name: old"; "NAME:  JBL Flip "] " Icon: Audio-Headset" []
                     eq_refl eq_refl eq_refl)).
Defined.

(** X2: a detail line that has a separator and a key other than [name],
    [connected] and [icon] is ignored: the block with the line and the
    block without it give the same result. *)
Theorem deviceInfo_ignores_other_keys
    (tool1 tool2 : list string -> string) (i : string)
    (pre post : list string) (x : string) :
  info_lines tool1 i = (pre ++ x :: post)%list ->
  info_lines tool2 i = (pre ++ post)%list ->
  has_char ":" x = true ->
  has_key "name" x = false -> has_key "connected" x = false ->
  has_key "icon" x = false ->
  deviceInfo tool1 i = deviceInfo tool2 i.
Proof.
  intros H1 H2 Hsep Hn Hc Hi. rewrite !deviceInfo_unfold.
  fold (info_lines tool1 i). fold (info_lines tool2 i). rewrite H1, H2.
  rewrite !deviceInfo_loop_app. f_equal.
  destruct (deviceInfo_loop pre _) as [v|e]; cbn [bind deviceInfo_loop]; [|reflexivity].
  now rewrite (deviceInfo_line_other_key x v Hsep Hn Hc Hi).
Qed.

Lemma deviceInfo_ignores_other_keys_witness :
  deviceInfo (bt (text ["Name: Foo"; "Paired: yes"; "Connected: yes"])) "AA:BB"
  = deviceInfo (bt (text ["Name: Foo"; "Connected: yes"])) "AA:BB".
Proof.
  exact (deviceInfo_ignores_other_keys
           (bt (text ["Name: Foo"; "Paired: yes"; "Connected: yes"]))
           (bt (text ["Name: Foo"; "Connected: yes"])) "AA:BB"
           ["Name: Foo"] ["Connected: yes"] "Paired: yes"
           eq_refl eq_refl eq_refl eq_refl eq_refl eq_refl).
Defined.

(** X3: only the first [:] of a detail line separates key and value, and
    white space around the line, the key and the value does not count: a
    line [k:raw] whose [k] has no [:] is handled by the key
    [k.strip().lower()] and the value [raw.strip()], whatever [raw]
    contains. *)
Theorem deviceInfo_line_first_colon (k raw : string) (v : InfoVars) :
  has_char ":" k = false ->
  deviceInfo_line (k ++ ":" ++ raw) v =
  Ok (if String.eqb (Py.lower (Py.strip k)) "name" then
        {| v_name := Py.strip raw; v_connected := v_connected v; v_icon := v_icon v |}
      else if String.eqb (Py.lower (Py.strip k)) "connected" then
        {| v_name := v_name v;
           v_connected := String.eqb (Py.lower (Py.strip raw)) "yes";
           v_icon := v_icon v |}
      else if String.eqb (Py.lower (Py.strip k)) "icon" then
        {| v_name := v_name v; v_connected := v_connected v;
           v_icon := Some (Py.lower (Py.strip raw)) |}
      else v).
Proof.
  intros Hk. unfold deviceInfo_line, Py.split1.
  change (k ++ ":" ++ raw) with (k ++ String ":" raw).
  rewrite (strip_stop k raw ":" eq_refl).
  rewrite partition_app by (now rewrite has_char_lstrip).
  cbn [unpack2 bind]. rewrite strip_lstrip, strip_rstrip.
  repeat match goal with |- context [if ?b then _ else _] => destruct b end;
    reflexivity.
Qed.

Lemma deviceInfo_line_first_colon_witness :
  deviceInfo_line ("  Name " ++ ":" ++ " AA:BB:CC  ")
    {| v_name := "x"; v_connected := false; v_icon := None |}
  = Ok {| v_name := "AA:BB:CC"; v_connected := false; v_icon := None |}.
Proof.
  exact (deviceInfo_line_first_colon "  Name " " AA:BB:CC  "
           {| v_name := "x"; v_connected := false; v_icon := None |} eq_refl).
Defined.

(** X15: when the tool prints nothing for an id (an unknown device, say),
    [deviceInfo] still returns a record: the id it was asked for, the
    generated name, no icon, not connected. *)
Theorem deviceInfo_empty_output (tool : list string -> string) (i : string) :
  tool ["bluetoothctl"; "info"; i] = "" ->
  deviceInfo tool i
  = Ok {| id := i; name := "Bluetooth Device " ++ i; icon := None;
          connected := false |}.
Proof.
  intros H. rewrite deviceInfo_unfold, H. reflexivity.
Qed.

Lemma deviceInfo_empty_output_witness :
  deviceInfo (bluetoothctl (text ["Device AA:BB Foo"]) (fun _ => "")) "AA:BB"
  = Ok {| id := "AA:BB"; name := "Bluetooth Device AA:BB"; icon := None;
          connected := false |}.
Proof.
  exact (deviceInfo_empty_output
           (bluetoothctl (text ["Device AA:BB Foo"]) (fun _ => "")) "AA:BB" eq_refl).
Defined.

(** ** More on the listing loop and the refresh *)

Lemma listDevices_loop_step_id (tool : list string -> string) (x : string)
    (lines : list string) (deviceList : list BluetoothDevice) :
  listDevices_loop tool (x :: lines) deviceList =
  match line_id x with
  | Some i =>
      bind (deviceInfo tool i)
           (fun d => listDevices_loop tool lines (deviceList ++ [d])%list)
  | None => Raise ValueError
  end.
Proof.
  cbn [listDevices_loop]. unfold line_id, Py.split1.
  destruct (Py.partition " " (Py.removeprefix "Device " x)) as [[i r]|]; reflexivity.
Qed.

Lemma deviceInfo_raises (tool : list string -> string) (i : string) :
  forallb (has_char ":") (info_lines tool i) = false ->
  deviceInfo tool i = Raise ValueError.
Proof.
  intros H. rewrite deviceInfo_unfold. fold (info_lines tool i).
  now rewrite deviceInfo_loop_raises.
Qed.

Lemma listDevices_loop_ok (tool : list string -> string) (lines : list string)
    (deviceList : list BluetoothDevice) :
  forallb (line_ok tool) lines = true ->
  exists ds,
    listDevices_loop tool lines deviceList = Ok (deviceList ++ ds)%list
    /\ Forall2 (fun x d => line_id x = Some (id d) /\ deviceInfo tool (id d) = Ok d)
               lines ds.
Proof.
  revert deviceList. induction lines as [|x lines IH]; intros deviceList H.
  - exists []. cbn. rewrite app_nil_r. split; [reflexivity | constructor].
  - cbn [forallb] in H. apply andb_true_iff in H as [Hx Hl].
    rewrite listDevices_loop_step_id. unfold line_ok in Hx.
    destruct (line_id x) as [i|] eqn:Ei; [|discriminate].
    destruct (deviceInfo_returns tool i Hx) as (d & Ed).
    pose proof (deviceInfo_id tool i d Ed) as Hid.
    rewrite Ed. cbn [bind].
    destruct (IH (deviceList ++ [d])%list Hl) as (ds & -> & Hds).
    exists (d :: ds). split.
    + now rewrite <- app_assoc.
    + constructor; [|exact Hds]. rewrite Hid. now split.
Qed.

Lemma listDevices_loop_raises (tool : list string -> string) (lines : list string)
    (deviceList : list BluetoothDevice) :
  forallb (line_ok tool) lines = false ->
  listDevices_loop tool lines deviceList = Raise ValueError.
Proof.
  revert deviceList. induction lines as [|x lines IH]; intros deviceList H.
  - discriminate.
  - cbn [forallb] in H. rewrite listDevices_loop_step_id.
    unfold line_ok in H. destruct (line_id x) as [i|]; [|reflexivity].
    destruct (forallb (has_char ":") (info_lines tool i)) eqn:Hx.
    + destruct (deviceInfo_returns tool i Hx) as (d & ->). cbn [bind].
      now apply IH.
    + now rewrite (deviceInfo_raises tool i Hx).
Qed.

(** X4: [listDevices] on any listing. When every line yields an id (it
    has a blank after the optional [Device ] prefix) and every such id's
    detail block has a separator on each line, the result has one record
    per line, in order, each the [deviceInfo] record of its line's id;
    otherwise the whole call raises [ValueError] and no list is returned,
    whatever the other lines are. *)
Theorem listDevices_any_listing (tool : list string -> string) :
  (forallb (line_ok tool) (Py.splitlines (tool ["bluetoothctl"; "devices"])) = true ->
   exists ds,
     listDevices tool = Ok ds
     /\ Forall2 (fun x d => line_id x = Some (id d) /\ deviceInfo tool (id d) = Ok d)
                (Py.splitlines (tool ["bluetoothctl"; "devices"])) ds)
  /\ (forallb (line_ok tool) (Py.splitlines (tool ["bluetoothctl"; "devices"])) = false ->
      listDevices tool = Raise ValueError).
Proof.
  unfold listDevices. split; intros H.
  - destruct (listDevices_loop_ok tool _ [] H) as (ds & E & Hds).
    exists ds. now split.
  - now apply listDevices_loop_raises.
Qed.

Lemma listDevices_any_listing_witness :
  (exists ds,
      listDevices
        (bluetoothctl (text ["Device AA:BB Foo"; "CC:DD Bar"])
                      (fun _ => text ["Name: Foo"]))
      = Ok ds
      /\ Forall2 (fun x d =>
                    line_id x = Some (id d)
                    /\ deviceInfo
                         (bluetoothctl (text ["Device AA:BB Foo"; "CC:DD Bar"])
                                       (fun _ => text ["Name: Foo"]))
                         (id d) = Ok d)
                 ["Device AA:BB Foo"; "CC:DD Bar"] ds)
  /\ listDevices
       (bluetoothctl (text ["Device AA:BB Foo"; "Device CC:DD"])
                     (fun _ => text ["Name: Foo"]))
     = Raise ValueError.
Proof.
  split.
  - exact (proj1 (listDevices_any_listing
                    (bluetoothctl (text ["Device AA:BB Foo"; "CC:DD Bar"])
                                  (fun _ => text ["Name: Foo"])))
                 eq_refl).
  - exact (proj2 (listDevices_any_listing
                    (bluetoothctl (text ["Device AA:BB Foo"; "Device CC:DD"])
                                  (fun _ => text ["Name: Foo"])))
                 eq_refl).
Defined.

(** X5: [listConnectedDevices] runs the same loop over the output of
    [bluetoothctl devices Connected]: one [deviceInfo] record per line, in
    order, or [ValueError] for the whole call; it applies no test of its
    own to the records' connected flag. *)
Theorem listConnectedDevices_any_listing (tool : list string -> string) :
  (forallb (line_ok tool)
     (Py.splitlines (tool ["bluetoothctl"; "devices"; "Connected"])) = true ->
   exists ds,
     listConnectedDevices tool = Ok ds
     /\ Forall2 (fun x d => line_id x = Some (id d) /\ deviceInfo tool (id d) = Ok d)
                (Py.splitlines (tool ["bluetoothctl"; "devices"; "Connected"])) ds)
  /\ (forallb (line_ok tool)
        (Py.splitlines (tool ["bluetoothctl"; "devices"; "Connected"])) = false ->
      listConnectedDevices tool = Raise ValueError).
Proof.
  unfold listConnectedDevices. split; intros H.
  - destruct (listDevices_loop_ok tool _ [] H) as (ds & E & Hds).
    exists ds. now split.
  - now apply listDevices_loop_raises.
Qed.

Lemma listConnectedDevices_any_listing_witness :
  exists ds,
    listConnectedDevices
      (bluetoothctl_both (text ["Device AA:BB Foo"; "Device CC:DD Bar"])
                         (text ["CC:DD Bar"])
                         (fun _ => text ["Name: Bar"; "Connected: no"]))
    = Ok ds
    /\ Forall2 (fun x d =>
                  line_id x = Some (id d)
                  /\ deviceInfo
                       (bluetoothctl_both (text ["Device AA:BB Foo"; "Device CC:DD Bar"])
                                          (text ["CC:DD Bar"])
                                          (fun _ => text ["Name: Bar"; "Connected: no"]))
                       (id d) = Ok d)
               ["CC:DD Bar"] ds.
Proof.
  exact (proj1 (listConnectedDevices_any_listing
                  (bluetoothctl_both (text ["Device AA:BB Foo"; "Device CC:DD Bar"])
                                     (text ["CC:DD Bar"])
                                     (fun _ => text ["Name: Bar"; "Connected: no"])))
               eq_refl).
Defined.

Lemma fold_left_append_cache (devices : list BluetoothDevice) (p : Plugin) :
  fold_left
    (fun p device => {| bluetoothDevices := (bluetoothDevices p ++ [device])%list |})
    devices p
  = {| bluetoothDevices := (bluetoothDevices p ++ devices)%list |}.
Proof.
  revert p. induction devices as [|d devices IH]; intros p; cbn [fold_left].
  - rewrite app_nil_r. now destruct p.
  - rewrite IH. cbn [bluetoothDevices]. now rewrite <- app_assoc.
Qed.

(** X6: a refresh replaces the cache wholesale. When the listing
    succeeds, the new cache is exactly the list [listDevices] returned and
    nothing of the old cache is kept; when the listing raises, the error
    reaches the caller and the cache is left empty (it was cleared before
    the listing ran). *)
Theorem updateIndexItems_replaces_cache (tool : list string -> string) (self : Plugin) :
  (forall devices,
      listDevices tool = Ok devices ->
      updateIndexItems tool self = (Ok tt, {| bluetoothDevices := devices |}))
  /\ (forall e,
        listDevices tool = Raise e ->
        updateIndexItems tool self = (Raise e, {| bluetoothDevices := [] |})).
Proof.
  unfold updateIndexItems. split.
  - intros devices ->. now rewrite fold_left_append_cache.
  - now intros e ->.
Qed.

Lemma updateIndexItems_replaces_cache_witness :
  updateIndexItems
    (bluetoothctl (text ["Device AA:BB Foo"]) (fun _ => text ["broken"]))
    {| bluetoothDevices :=
         [ {| id := "CC:DD"; name := "Old"; icon := None; connected := true |} ] |}
  = (Raise ValueError, {| bluetoothDevices := [] |}).
Proof.
  exact (proj2 (updateIndexItems_replaces_cache
                  (bluetoothctl (text ["Device AA:BB Foo"]) (fun _ => text ["broken"]))
                  {| bluetoothDevices :=
                       [ {| id := "CC:DD"; name := "Old"; icon := None;
                            connected := true |} ] |})
               ValueError eq_refl).
Defined.

(** X7: refresh, then query. After a successful refresh of any cache, a
    query with a trigger and a blank query string shows one result per
    line of the listing, and the result ids are the ids of the lines, in
    the order of the listing. *)
Theorem refresh_then_query (tool : list string -> string) (pluginDir : string)
    (self self' : Plugin) (query : Query) :
  updateIndexItems tool self = (Ok tt, self') ->
  trigger query <> "" ->
  Py.strip (query_string query) = "" ->
  map (fun r => Some (item_id (rank_item r))) (handleGlobalQuery pluginDir self' query)
  = map line_id (Py.splitlines (tool ["bluetoothctl"; "devices"])).
Proof.
  intros Hu Ht Hq.
  destruct (forallb (line_ok tool) (Py.splitlines (tool ["bluetoothctl"; "devices"])))
    eqn:Hok.
  - unfold updateIndexItems, listDevices in Hu.
    destruct (listDevices_loop_ok tool _ [] Hok) as (ds & E & Hds).
    rewrite E, fold_left_append_cache in Hu. cbn in Hu. injection Hu as <-.
    apply String.eqb_neq in Ht.
    rewrite handleGlobalQuery_eq, Ht, Hq. cbn [Py.lower bluetoothDevices].
    rewrite filter_all by reflexivity. rewrite map_map. cbn [rankItem rank_item item item_id].
    clear E Hok.
    induction Hds as [|x d lines ds' [Hx _] _ IH]; cbn [map]; [reflexivity|].
    now rewrite Hx, IH.
  - unfold updateIndexItems, listDevices in Hu.
    rewrite (listDevices_loop_raises tool _ [] Hok) in Hu. discriminate.
Qed.

Lemma refresh_then_query_witness :
  map (fun r => Some (item_id (rank_item r)))
      (handleGlobalQuery "/plugin"
         {| bluetoothDevices :=
              [ {| id := "AA:BB"; name := "Foo"; icon := None; connected := true |};
                {| id := "CC:DD"; name := "Foo"; icon := None; connected := true |} ] |}
         {| trigger := "bt "; query_string := " " |})
  = map line_id
      (Py.splitlines
         (bluetoothctl (text ["Device AA:BB Foo"; "Device CC:DD Bar"])
                       (fun _ => text ["Name: Foo"; "Connected: yes"])
                       ["bluetoothctl"; "devices"])).
Proof.
  refine (refresh_then_query
            (bluetoothctl (text ["Device AA:BB Foo"; "Device CC:DD Bar"])
                          (fun _ => text ["Name: Foo"; "Connected: yes"]))
            "/plugin"
            {| bluetoothDevices :=
                 [ {| id := "ZZ"; name := "Old"; icon := None; connected := false |} ] |}
            _ {| trigger := "bt "; query_string := " " |} eq_refl _ eq_refl).
  discriminate.
Defined.

(** ** More on the actions *)


(** X9: a repeated request is absorbed. Calling [connect] again on the
    record that [connect] left behind changes neither the record nor the
    log, in whatever directory, and the same holds for [disconnect]. *)
Theorem connect_disconnect_idempotent
    (self : BluetoothDevice) (workingDir workingDir' : string)
    (launched : list Process) :
  connect (fst (connect self workingDir launched)) workingDir'
          (snd (connect self workingDir launched))
  = connect self workingDir launched
  /\ disconnect (fst (disconnect self workingDir launched)) workingDir'
                (snd (disconnect self workingDir launched))
     = disconnect self workingDir launched.
Proof.
  unfold connect, disconnect.
  destruct (connected self) eqn:E; cbn [negb fst snd set_connected connected];
    rewrite ?E; split; reflexivity.
Qed.

(** X10: the action of a result item toggles the device. An item carries
    exactly one action; calling it on the device the item was made from
    launches exactly one command, [connect] for a disconnected device and
    [disconnect] for a connected one, in the plugin directory, and flips
    the flag; calling the same action a second time does nothing more; and
    the action of the item made from the flipped device brings the record
    back to what it was. *)
Theorem item_action_toggles
    (pluginDir : string) (self : BluetoothDevice) (launched : list Process) :
  exists a,
    item_actions (item pluginDir self) = [a]
    /\ invoke a self launched
       = (set_connected self (negb (connected self)),
          (launched
           ++ [{| cmdln := ["bluetoothctl";
                            if connected self then "disconnect" else "connect";
                            id self];
                  workdir := pluginDir |}])%list)
    /\ invoke a (fst (invoke a self launched)) (snd (invoke a self launched))
       = invoke a self launched
    /\ exists a',
         item_actions (item pluginDir (fst (invoke a self launched))) = [a']
         /\ fst (invoke a' (fst (invoke a self launched))
                        (snd (invoke a self launched)))
            = self.
Proof.
  destruct self as [i n ic c]. unfold item, invoke, connect, disconnect,
    runDetachedProcess, set_connected.
  destruct c; cbn; eexists; split_all; try reflexivity;
    eexists; split; reflexivity.
Qed.

(** X11: the two argument forms agree. For a device record that is not
    yet in the requested state, [connectDevice] and [disconnectDevice]
    launch exactly what they launch for the record's id given as a
    string. *)
Theorem record_and_id_launch_alike
    (currentWorkingDir : string) (d : BluetoothDevice) (launched : list Process) :
  (connected d = false ->
   launches (connectDevice currentWorkingDir (PyDevice d) launched)
   = launches (connectDevice currentWorkingDir (PyStr (id d)) launched))
  /\ (connected d = true ->
      launches (disconnectDevice currentWorkingDir (PyDevice d) launched)
      = launches (disconnectDevice currentWorkingDir (PyStr (id d)) launched)).
Proof.
  unfold launches, connectDevice, disconnectDevice, connect, disconnect.
  split; intros ->; reflexivity.
Qed.

Lemma record_and_id_launch_alike_witness :
  launches (connectDevice "/plugin"
              (PyDevice {| id := "AA:BB"; name := "Foo"; icon := None;
                           connected := false |}) [])
  = launches (connectDevice "/plugin" (PyStr "AA:BB") []).
Proof.
  exact (proj1 (record_and_id_launch_alike "/plugin"
                  {| id := "AA:BB"; name := "Foo"; icon := None; connected := false |}
                  [])
               eq_refl).
Defined.

(** ** More on the query handler *)

Lemma isspace_lower_char (c : ascii) : Py.isspace (Py.lower_char c) = Py.isspace c.
Proof. destruct c as [[] [] [] [] [] [] [] []]; reflexivity. Qed.

Lemma lower_char_idem (c : ascii) : Py.lower_char (Py.lower_char c) = Py.lower_char c.
Proof. destruct c as [[] [] [] [] [] [] [] []]; reflexivity. Qed.

Lemma lower_idem (s : string) : Py.lower (Py.lower s) = Py.lower s.
Proof.
  induction s as [|c s IH]; simpl; [reflexivity|]. now rewrite lower_char_idem, IH.
Qed.

Lemma lower_append (a b : string) : Py.lower (a ++ b) = Py.lower a ++ Py.lower b.
Proof. induction a as [|c a IH]; simpl; [reflexivity | now rewrite IH]. Qed.

Lemma lower_rev (s : string) : Py.lower (Py.rev s) = Py.rev (Py.lower s).
Proof.
  induction s as [|c s IH]; simpl; [reflexivity|]. now rewrite lower_append, IH.
Qed.

Lemma lower_lstrip (s : string) : Py.lower (Py.lstrip s) = Py.lstrip (Py.lower s).
Proof.
  induction s as [|c s IH]; simpl; [reflexivity|].
  rewrite isspace_lower_char. destruct (Py.isspace c); [exact IH | reflexivity].
Qed.

Lemma lower_strip (s : string) : Py.lower (Py.strip s) = Py.strip (Py.lower s).
Proof.
  unfold Py.strip, Py.rstrip.
  now rewrite lower_rev, lower_lstrip, lower_rev, lower_lstrip.
Qed.

Lemma normalise_lower (s : string) :
  Py.lower (Py.strip (Py.lower s)) = Py.lower (Py.strip s).
Proof. now rewrite <- lower_strip, lower_idem. Qed.

Lemma substring_trans (a b c : string) :
  substring a b -> substring b c -> substring a c.
Proof.
  intros (p1 & q1 & ->) (p2 & q2 & ->).
  exists (p2 ++ p1), (q1 ++ q2). now rewrite !append_assoc_r.
Qed.

(** X12: matching ignores letter case and outer white space of the query.
    Lowercasing the query string, stripping it, or both, gives the same
    results as the query string as typed. *)
Theorem handleGlobalQuery_normalised_query
    (pluginDir : string) (self : Plugin) (t q : string) :
  handleGlobalQuery pluginDir self {| trigger := t; query_string := Py.lower q |}
  = handleGlobalQuery pluginDir self {| trigger := t; query_string := q |}
  /\ handleGlobalQuery pluginDir self {| trigger := t; query_string := Py.strip q |}
     = handleGlobalQuery pluginDir self {| trigger := t; query_string := q |}
  /\ handleGlobalQuery pluginDir self
       {| trigger := t; query_string := Py.lower (Py.strip q) |}
     = handleGlobalQuery pluginDir self {| trigger := t; query_string := q |}.
Proof.
  rewrite !handleGlobalQuery_eq. cbn [trigger query_string].
  destruct (String.eqb t ""); [now split_all|].
  rewrite (normalise_lower (Py.strip q)), (normalise_lower q), strip_idem.
  now split_all.
Qed.

(** X13: typing more never adds results. If the normalised text of one
    query occurs in the normalised text of a second one, every result of
    the second query is a result of the first. *)
Theorem handleGlobalQuery_narrows
    (pluginDir : string) (self : Plugin) (q1 q2 : Query) :
  trigger q1 <> "" ->
  substring (Py.lower (Py.strip (query_string q1)))
            (Py.lower (Py.strip (query_string q2))) ->
  forall r,
    In r (handleGlobalQuery pluginDir self q2) ->
    In r (handleGlobalQuery pluginDir self q1).
Proof.
  intros Ht Hsub r. apply String.eqb_neq in Ht.
  rewrite !handleGlobalQuery_eq, Ht.
  destruct (String.eqb (trigger q2) ""); [intros []|].
  rewrite !in_map_iff. intros (d & <- & Hd). exists d. split; [reflexivity|].
  apply filter_In in Hd as [Hd Hsel]. apply filter_In. split; [exact Hd|].
  apply selected_spec. apply selected_spec in Hsel.
  exact (substring_trans _ _ _ Hsub Hsel).
Qed.

Lemma handleGlobalQuery_narrows_witness :
  In (rankItem "/plugin"
        {| id := "AA:BB"; name := "JBL Flip"; icon := None; connected := true |})
     (handleGlobalQuery "/plugin"
        {| bluetoothDevices :=
             [ {| id := "CC:DD"; name := "Keyboard"; icon := None; connected := false |};
               {| id := "AA:BB"; name := "JBL Flip"; icon := None; connected := true |} ] |}
        {| trigger := "bt "; query_string := "FL" |}).
Proof.
  refine (handleGlobalQuery_narrows "/plugin" _
            {| trigger := "bt "; query_string := "FL" |}
            {| trigger := "bt "; query_string := " jbl flip" |} _ _ _ _).
  - discriminate.
  - exists "jbl ", "ip". reflexivity.
  - left. reflexivity.
Defined.

(** X14: each cached device is judged on its own and the order of the
    cache is the order of the results: the results for a cache made of
    two parts are the results for the first part followed by those for
    the second. *)
Theorem handleGlobalQuery_append
    (pluginDir : string) (ds1 ds2 : list BluetoothDevice) (query : Query) :
  handleGlobalQuery pluginDir {| bluetoothDevices := (ds1 ++ ds2)%list |} query
  = (handleGlobalQuery pluginDir {| bluetoothDevices := ds1 |} query
     ++ handleGlobalQuery pluginDir {| bluetoothDevices := ds2 |} query)%list.
Proof.
  rewrite !handleGlobalQuery_eq. cbn [bluetoothDevices].
  destruct (String.eqb (trigger query) ""); [reflexivity|].
  now rewrite filter_app, map_app.
Qed.

(** ** The errors that reach a caller *)





